(** * ConversationChain: construction-time validation of memory, prompt and keys

    Shallow embedding of
    [libs/langchain/langchain/chains/conversation/base.py].

    The class is a pydantic model.  Building an instance runs, in this order,
    - the inherited constructor ([super().__init__], line 43), which
      assigns the declared fields from the keyword arguments or their defaults
      and then calls the class's root validator
      [validate_prompt_input_variables] (lines 47-64);
    - the rest of the body of [__init__] (lines 44-45).

    Python lists of [str] are [list string]; [set(...)] is a [gset string];
    [None] is [None : option _]; a raised exception is the [Raise] branch of
    an error monad.  (pydantic hands a [ValueError] raised by a root validator
    to the caller inside its own [ValidationError], a [ValueError] too, with
    the validator's message; the embedding keeps the validator's error.) *)

From stdpp Require Import base option strings list gmap.

Open Scope string_scope.

(** ** Collaborators *)

(** The memory store, as far as the chain reads it: [memory_variables]
    (line 50) and [input_key] (line 44). *)
Module BaseMemory.
Record t : Type := Build {
  memory_variables : list string;
  input_key : option string
}.
End BaseMemory.

(** The prompt template, as far as the chain reads it: [input_variables]
    (line 57). *)
Module BasePromptTemplate.
Record t : Type := Build {
  input_variables : list string
}.
End BasePromptTemplate.

(** ** Exceptions *)

(** The three [raise ValueError(...)] statements of the file, each with the
    values its message interpolates:
    - line 45, in [__init__];
    - lines 53-56, the collision branch of the validator;
    - lines 60-63, the subset branch of the validator. *)
Inductive ConfigurationError : Type :=
| MissingMemoryInputKey
| InputKeyCollision (input_key : string) (memory_keys : list string)
| PromptMemoryMismatch (expected_keys prompt_variables : list string).

(** [AttributeError] is what reading an attribute of [None] raises. *)
Inductive exception : Type :=
| ValueError (e : ConfigurationError)
| AttributeError (attr : string).

Section Rendering.

(** Python's text for a list of [str] interpolated in an f-string
    ([{memory_keys}], [{expected_keys}], [{prompt_variables}]); a [str]
    interpolates as itself ([{input_key}]). *)
Variable repr : list string → string.

(** The message each [ValueError] is raised with. *)
Definition message (e : ConfigurationError) : string :=
  match e with
  | MissingMemoryInputKey =>
      "Memory input key must be explicitly set when creating an instance of "
      +:+ "ConversationBufferMemory."
  | InputKeyCollision input_key memory_keys =>
      "The input key " +:+ input_key +:+ " was also found in the memory keys "
      +:+ "(" +:+ repr memory_keys +:+ ") - please provide keys that don't overlap."
  | PromptMemoryMismatch expected_keys prompt_variables =>
      "Prompt input variables do not contain all expected keys. Expected keys are "
      +:+ repr expected_keys +:+ ", but got " +:+ repr prompt_variables
      +:+ " from the prompt."
  end.

End Rendering.

(** Which of the three [raise] statements an error comes from. *)
Inductive error_kind : Type := KMissing | KCollision | KMismatch.

Definition kind_of (e : ConfigurationError) : error_kind :=
  match e with
  | MissingMemoryInputKey => KMissing
  | InputKeyCollision _ _ => KCollision
  | PromptMemoryMismatch _ _ => KMismatch
  end.

(** ** The error monad *)

Inductive result (A : Type) : Type :=
| Return (a : A)
| Raise (e : exception).
Arguments Return {A} a.
Arguments Raise {A} e.

#[global] Instance result_ret : MRet result := @Return.
#[global] Instance result_bind : MBind result := λ A B f c,
  match c with
  | Return a => f a
  | Raise e => Raise e
  end.

Definition succeeds {A : Type} (c : result A) : bool :=
  match c with
  | Return _ => true
  | Raise _ => false
  end.

(** ** The chain *)

(** The fields of the model (lines 22-28); the same record is the [values]
    dictionary the root validator receives and the object [self].
    [memory] is an [option] because line 44 tests it against [None]. *)
Record ConversationChain : Type := {
  memory : option BaseMemory.t;
  prompt : BasePromptTemplate.t;
  input_key : string;
  output_key : string
}.

(** [input_keys] (lines 36-39). *)
Definition input_keys (self : ConversationChain) : list string :=
  [input_key self].

(** [values["memory"].memory_variables] (line 50). *)
Definition read_memory_keys (values : ConversationChain) : result (list string) :=
  match memory values with
  | Some m => Return (BaseMemory.memory_variables m)
  | None => Raise (AttributeError "memory_variables")
  end.

(** [validate_prompt_input_variables] (lines 47-64). *)
Definition validate_prompt_input_variables (values : ConversationChain)
  : result ConversationChain :=
  memory_keys ← read_memory_keys values;
  let input_key := input_key values in
  if bool_decide (input_key ∈ memory_keys) then
    Raise (ValueError (InputKeyCollision input_key memory_keys))
  else
    let prompt_variables := BasePromptTemplate.input_variables (prompt values) in
    let expected_keys := (memory_keys ++ [input_key])%list in
    if negb (bool_decide
               (list_to_set expected_keys ⊆@{gset string} list_to_set prompt_variables))
    then Raise (ValueError (PromptMemoryMismatch expected_keys prompt_variables))
    else Return values.

(** The condition of line 44:
    [self.memory is not None and self.memory.input_key is None]. *)
Definition memory_input_key_is_unset (self : ConversationChain) : bool :=
  match memory self with
  | Some m =>
      match BaseMemory.input_key m with
      | None => true
      | Some _ => false
      end
  | None => false
  end.

(** The keyword arguments of the constructor that this class declares;
    [None] is a keyword the caller left out.  The arguments of the parent
    class ([llm] and the like) are not read by this file. *)
Record kwargs : Type := {
  kw_memory : option BaseMemory.t;
  kw_prompt : option BasePromptTemplate.t;
  kw_input_key : option string;
  kw_output_key : option string
}.

Definition with_output_key (o : option string) (kw : kwargs) : kwargs :=
  {| kw_memory := kw_memory kw; kw_prompt := kw_prompt kw;
     kw_input_key := kw_input_key kw; kw_output_key := o |}.

Section Construction.

(** The instance [ConversationBufferMemory()] that the default factory of
    line 22 builds, and the default [PROMPT] of line 24; both are defined in
    other modules of the package. *)
Variable ConversationBufferMemory : BaseMemory.t.
Variable PROMPT : BasePromptTemplate.t.

(** The memory store the chain ends up with (line 22). *)
Definition attached_memory (kw : kwargs) : BaseMemory.t :=
  default ConversationBufferMemory (kw_memory kw).

(** Modelled from the spec: the inherited constructor [LLMChain.__init__]
    (pydantic's model constructor) is not part of this file.  It assigns every
    declared field from the keyword arguments, falling back on the defaults of
    lines 22-28 ("a default empty-history store is used when omitted",
    [input_key] default "input", [output_key] default "response"). *)
Definition assign_fields (kw : kwargs) : ConversationChain :=
  {| memory := Some (attached_memory kw);
     prompt := default PROMPT (kw_prompt kw);
     input_key := default "input" (kw_input_key kw);
     output_key := default "response" (kw_output_key kw) |}.

(** Modelled from the spec: the inherited constructor then runs the
    cross-field validation hook "after all fields are assigned" and hands the
    validated values to the object. *)
Definition super_init (kw : kwargs) : result ConversationChain :=
  validate_prompt_input_variables (assign_fields kw).

(** [ConversationChain.__init__] (lines 41-45). *)
Definition __init__ (kw : kwargs) : result ConversationChain :=
  self ← super_init kw;
  if memory_input_key_is_unset self then
    Raise (ValueError MissingMemoryInputKey)
  else Return self.

(** What a configuration fixes: M, k, P and the memory's own input key. *)
Definition memory_keys_of (kw : kwargs) : list string :=
  BaseMemory.memory_variables (attached_memory kw).
Definition input_key_of (kw : kwargs) : string :=
  input_key (assign_fields kw).
Definition prompt_variables_of (kw : kwargs) : list string :=
  BasePromptTemplate.input_variables (prompt (assign_fields kw)).
Definition memory_input_key_of (kw : kwargs) : option string :=
  BaseMemory.input_key (attached_memory kw).

End Construction.

(** ** The invariants of the data model *)

(** I1: the input key is not one of the memory variables. *)
Definition I1 (M : list string) (k : string) : Prop := k ∉ M.

(** I2: the memory variables together with the input key are all prompt
    variables. *)
Definition I2 (M : list string) (k : string) (P : list string) : Prop :=
  list_to_set M ∪ {[ k ]} ⊆@{gset string} list_to_set P.

#[global] Instance I1_dec M k : Decision (I1 M k).
Proof. unfold I1. apply _. Defined.
#[global] Instance I2_dec M k P : Decision (I2 M k P).
Proof. unfold I2. apply _. Defined.

Definition invariants (self : ConversationChain) : Prop :=
  ∃ m, memory self = Some m
       ∧ I1 (BaseMemory.memory_variables m) (input_key self)
       ∧ I2 (BaseMemory.memory_variables m) (input_key self)
            (BasePromptTemplate.input_variables (prompt self)).

(** ** The lifetime of a constructed chain *)

(** The only operation the class defines on a constructed chain is reading
    the property [input_keys].  [read_input_keys n self] reads it [n] times,
    threading the object through: the object afterwards and the results in
    order. *)
Fixpoint read_input_keys (n : nat) (self : ConversationChain)
  : ConversationChain * list (list string) :=
  match n with
  | 0 => (self, [])
  | S n' =>
      let r := input_keys self in
      let '(self', rs) := read_input_keys n' self in
      (self', r :: rs)
  end.

(** ** Assignment to a field of a constructed chain *)

(** [self.input_key = value].  The class's [Config] (lines 30-34) sets
    [extra] and [arbitrary_types_allowed] and nothing else: it neither makes
    the model immutable nor asks for validation on assignment, and the class
    defines no [__setattr__] of its own.  So the assignment stores the value
    in the declared field and runs no validator. *)
Definition set_input_key (value : string) (self : ConversationChain)
  : ConversationChain :=
  {| memory := memory self;
     prompt := prompt self;
     input_key := value;
     output_key := output_key self |}.

(** ** Concrete configurations *)

Definition mk_kwargs (M : list string) (mik : option string) (P : list string)
    (k : string) (o : string) : kwargs :=
  {| kw_memory := Some (BaseMemory.Build M mik);
     kw_prompt := Some (BasePromptTemplate.Build P);
     kw_input_key := Some k;
     kw_output_key := Some o |}.

(** A choice for the two parameters of [__init__], for closed configurations:
    a buffer memory exposing "history" with no input key of its own, and a
    prompt over "history" and "input". *)
Definition default_buffer_memory : BaseMemory.t :=
  BaseMemory.Build ["history"] None.
Definition default_prompt : BasePromptTemplate.t :=
  BasePromptTemplate.Build ["history"; "input"].
Definition no_kwargs : kwargs :=
  {| kw_memory := None; kw_prompt := None;
     kw_input_key := None; kw_output_key := None |}.

(** [ConversationChain(...)] with these defaults. *)
Definition construct (kw : kwargs) : result ConversationChain :=
  __init__ default_buffer_memory default_prompt kw.

(** The configurations of the specification's testable properties. *)
Definition P5_config : kwargs :=
  mk_kwargs ["history"] (Some "input") ["history"; "input"] "input" "response".
Definition P5_chain : ConversationChain :=
  {| memory := Some (BaseMemory.Build ["history"] (Some "input"));
     prompt := BasePromptTemplate.Build ["history"; "input"];
     input_key := "input";
     output_key := "response" |}.
Definition superset_config : kwargs :=
  mk_kwargs ["history"] (Some "input") ["history"; "input"; "extra"] "input" "response".
Definition mismatch_config : kwargs :=
  mk_kwargs ["history"] (Some "input") ["input"] "input" "response".
Definition P6_config : kwargs :=
  mk_kwargs ["input"] (Some "input") [] "input" "response".
Definition unset_config : kwargs :=
  mk_kwargs ["history"] None ["history"; "input"] "input" "response".
Definition unset_collision_config : kwargs :=
  mk_kwargs ["input"] None ["input"] "input" "response".
Definition unset_mismatch_config : kwargs :=
  mk_kwargs ["history"] None ["input"] "input" "response".

(** Further configurations: the prompt variables of P5 in another order and
    with a repetition; a memory whose own input key is neither the chain's
    input key nor a prompt variable; a memory that exposes no variable. *)
Definition reordered_config : kwargs :=
  mk_kwargs ["history"] (Some "input") ["input"; "history"; "input"] "input" "response".
Definition foreign_key_config : kwargs :=
  mk_kwargs ["history"] (Some "human_input") ["history"; "input"] "input" "response".
Definition empty_memory_config : kwargs :=
  mk_kwargs [] (Some "input") ["input"] "input" "response".
Definition empty_memory_chain : ConversationChain :=
  {| memory := Some (BaseMemory.Build [] (Some "input"));
     prompt := BasePromptTemplate.Build ["input"];
     input_key := "input";
     output_key := "response" |}.

(** * Properties *)

(** ** The messages tell the three errors apart *)

Lemma message_kind (repr : list string → string) (e1 e2 : ConfigurationError) :
  message repr e1 = message repr e2 → kind_of e1 = kind_of e2.
Proof.
  destruct e1, e2; simpl; intros Heq; try reflexivity; discriminate Heq.
Qed.

(** ** The set test of line 59 *)

Lemma set_of_expected_keys (M : list string) (k : string) :
  list_to_set (M ++ [k])%list =@{gset string} list_to_set M ∪ {[ k ]}.
Proof.
  rewrite list_to_set_app_L. simpl. rewrite (right_id_L ∅ (∪)). reflexivity.
Qed.

Lemma issubset_I2 (M P : list string) (k : string) :
  bool_decide (list_to_set (M ++ [k])%list ⊆@{gset string} list_to_set P) = true
  ↔ I2 M k P.
Proof.
  unfold I2. rewrite bool_decide_eq_true, set_of_expected_keys. reflexivity.
Qed.

Lemma I2_elements (M P : list string) (k : string) :
  I2 M k P ↔ (∀ x, x ∈ M ∨ x = k → x ∈ P).
Proof.
  unfold I2. split.
  - intros Hsub x Hx. apply (elem_of_list_to_set (C := gset string)).
    apply Hsub. set_solver.
  - intros Hall x Hx. apply elem_of_list_to_set. apply Hall. set_solver.
Qed.

Section Properties.

Context (ConversationBufferMemory : BaseMemory.t) (PROMPT : BasePromptTemplate.t).

Local Abbreviation assign_fields :=
  (assign_fields ConversationBufferMemory PROMPT).
Local Abbreviation super_init := (super_init ConversationBufferMemory PROMPT).
Local Abbreviation __init__ := (__init__ ConversationBufferMemory PROMPT).
Local Abbreviation M := (memory_keys_of ConversationBufferMemory).
Local Abbreviation k := (input_key_of ConversationBufferMemory PROMPT).
Local Abbreviation P := (prompt_variables_of ConversationBufferMemory PROMPT).
Local Abbreviation memory_input_key :=
  (memory_input_key_of ConversationBufferMemory).

(** ** The validator, branch by branch *)

Lemma validator_collision (kw : kwargs) :
  k kw ∈ M kw →
  super_init kw = Raise (ValueError (InputKeyCollision (k kw) (M kw))).
Proof.
  intros Hin. unfold super_init, validate_prompt_input_variables. simpl.
  rewrite bool_decide_eq_true_2; [reflexivity | exact Hin].
Qed.

Lemma validator_mismatch (kw : kwargs) :
  I1 (M kw) (k kw) → ¬ I2 (M kw) (k kw) (P kw) →
  super_init kw
  = Raise (ValueError (PromptMemoryMismatch (M kw ++ [k kw])%list (P kw))).
Proof.
  intros Hnotin Hsub. unfold super_init, validate_prompt_input_variables. simpl.
  rewrite bool_decide_eq_false_2 by exact Hnotin.
  destruct (bool_decide _) eqn:Hb; [| reflexivity].
  exfalso. apply Hsub. apply issubset_I2. exact Hb.
Qed.

Lemma validator_passes (kw : kwargs) :
  I1 (M kw) (k kw) → I2 (M kw) (k kw) (P kw) →
  super_init kw = Return (assign_fields kw).
Proof.
  intros Hnotin Hsub. unfold super_init, validate_prompt_input_variables. simpl.
  rewrite bool_decide_eq_false_2 by exact Hnotin.
  apply issubset_I2 in Hsub. unfold M, k, P in Hsub. simpl in Hsub.
  rewrite Hsub. reflexivity.
Qed.

(** ** The constructor, case by case *)

Lemma init_collision (kw : kwargs) :
  k kw ∈ M kw →
  __init__ kw = Raise (ValueError (InputKeyCollision (k kw) (M kw))).
Proof.
  intros Hin. unfold __init__. rewrite validator_collision by exact Hin.
  reflexivity.
Qed.

Lemma init_mismatch (kw : kwargs) :
  I1 (M kw) (k kw) → ¬ I2 (M kw) (k kw) (P kw) →
  __init__ kw
  = Raise (ValueError (PromptMemoryMismatch (M kw ++ [k kw])%list (P kw))).
Proof.
  intros Hnotin Hsub. unfold __init__.
  rewrite validator_mismatch by assumption. reflexivity.
Qed.

Lemma init_missing (kw : kwargs) :
  I1 (M kw) (k kw) → I2 (M kw) (k kw) (P kw) → memory_input_key kw = None →
  __init__ kw = Raise (ValueError MissingMemoryInputKey).
Proof.
  intros Hnotin Hsub Hnone. unfold __init__.
  rewrite validator_passes by assumption. simpl.
  unfold memory_input_key_is_unset. simpl.
  unfold memory_input_key_of in Hnone. rewrite Hnone. reflexivity.
Qed.

Lemma init_success (kw : kwargs) :
  I1 (M kw) (k kw) → I2 (M kw) (k kw) (P kw) → is_Some (memory_input_key kw) →
  __init__ kw = Return (assign_fields kw).
Proof.
  intros Hnotin Hsub [ik Hik]. unfold __init__.
  rewrite validator_passes by assumption. simpl.
  unfold memory_input_key_is_unset. simpl.
  unfold memory_input_key_of in Hik. rewrite Hik. reflexivity.
Qed.

(** Every construction falls in exactly one of four cases, in the order the
    code tests them. *)
Lemma init_cases (kw : kwargs) :
  (k kw ∈ M kw
   ∧ __init__ kw = Raise (ValueError (InputKeyCollision (k kw) (M kw))))
  ∨ (I1 (M kw) (k kw) ∧ ¬ I2 (M kw) (k kw) (P kw)
     ∧ __init__ kw
       = Raise (ValueError (PromptMemoryMismatch (M kw ++ [k kw])%list (P kw))))
  ∨ (I1 (M kw) (k kw) ∧ I2 (M kw) (k kw) (P kw) ∧ memory_input_key kw = None
     ∧ __init__ kw = Raise (ValueError MissingMemoryInputKey))
  ∨ (I1 (M kw) (k kw) ∧ I2 (M kw) (k kw) (P kw) ∧ is_Some (memory_input_key kw)
     ∧ __init__ kw = Return (assign_fields kw)).
Proof.
  destruct (decide (I1 (M kw) (k kw))) as [Hnotin | Hin].
  - destruct (decide (I2 (M kw) (k kw) (P kw))) as [Hsub | Hnsub].
    + destruct (memory_input_key kw) as [ik |] eqn:Hik.
      * do 3 right. repeat split; try assumption; [eauto |].
        apply init_success; try assumption. rewrite Hik. eauto.
      * do 2 right. left. auto using init_missing.
    + right. left. auto using init_mismatch.
  - left. unfold I1 in Hin. apply dec_stable in Hin. auto using init_collision.
Qed.

(** A successful construction went through the last case. *)
Lemma init_returns (kw : kwargs) (self : ConversationChain) :
  __init__ kw = Return self →
  self = assign_fields kw
  ∧ I1 (M kw) (k kw) ∧ I2 (M kw) (k kw) (P kw) ∧ is_Some (memory_input_key kw).
Proof.
  destruct (init_cases kw)
    as [(_ & ->) | [(_ & _ & ->) | [(_ & _ & _ & ->) | (Hni & Hs & Hsome & ->)]]];
    intros Hret; try discriminate Hret.
  injection Hret as <-. auto.
Qed.

(** Reading [input_keys] leaves the object as it is and gives the same list
    every time. *)
Lemma read_input_keys_spec (n : nat) (self : ConversationChain) :
  read_input_keys n self = (self, replicate n [input_key self]).
Proof.
  induction n as [| n IH]; simpl; [reflexivity |].
  rewrite IH. reflexivity.
Qed.

(** ** The properties of the specification *)

(** C1 (P1, collision detection): whenever the input key k is one of the
    memory variables M, construction fails with the [ValueError] of the
    collision branch; the error carries the offending key and the whole list
    of memory keys, and its message shows both. *)
Theorem collision_detection (kw : kwargs) :
  k kw ∈ M kw →
  __init__ kw = Raise (ValueError (InputKeyCollision (k kw) (M kw)))
  ∧ ∀ repr, ∃ pre mid post,
      message repr (InputKeyCollision (k kw) (M kw))
      = pre +:+ k kw +:+ mid +:+ repr (M kw) +:+ post.
Proof.
  intros Hin. split; [exact (init_collision kw Hin) |].
  intros repr.
  exists "The input key ", " was also found in the memory keys (",
         ") - please provide keys that don't overlap.".
  reflexivity.
Qed.

(** C2 (P2, subset enforcement), as amended: whenever the input key k is not
    one of the memory variables M and M with k is not included in the prompt
    variables P, construction fails with the [ValueError] of the subset
    branch; the error carries the expected keys [M ++ [k]] and the prompt
    variables, and its message shows both. *)
Theorem subset_enforcement (kw : kwargs) :
  I1 (M kw) (k kw) → ¬ I2 (M kw) (k kw) (P kw) →
  __init__ kw
  = Raise (ValueError (PromptMemoryMismatch (M kw ++ [k kw])%list (P kw)))
  ∧ ∀ repr, ∃ pre mid post,
      message repr (PromptMemoryMismatch (M kw ++ [k kw])%list (P kw))
      = pre +:+ repr (M kw ++ [k kw])%list +:+ mid +:+ repr (P kw) +:+ post.
Proof.
  intros Hnotin Hnsub. split; [exact (init_mismatch kw Hnotin Hnsub) |].
  intros repr.
  exists ("Prompt input variables do not contain all expected keys. "
          +:+ "Expected keys are "),
         ", but got ", " from the prompt.".
  reflexivity.
Qed.

(** C3 (P4, unset memory key rejection), as amended: when the memory's input
    key is unset, construction always fails with a configuration error,
    whatever M and P are; the unset key is tested after the collision and
    subset tests, so the failure is the error of the first failing one of
    them (the collision error when k is a memory variable, else the mismatch
    error when M with k is not included in P), and the
    missing-memory-input-key error exactly when both pass. *)
Theorem unset_memory_key_rejection (kw : kwargs) :
  memory_input_key kw = None →
  (∃ e, __init__ kw = Raise (ValueError e))
  ∧ (k kw ∈ M kw →
       __init__ kw = Raise (ValueError (InputKeyCollision (k kw) (M kw))))
  ∧ (I1 (M kw) (k kw) → ¬ I2 (M kw) (k kw) (P kw) →
       __init__ kw
       = Raise (ValueError (PromptMemoryMismatch (M kw ++ [k kw])%list (P kw))))
  ∧ (__init__ kw = Raise (ValueError MissingMemoryInputKey)
     ↔ I1 (M kw) (k kw) ∧ I2 (M kw) (k kw) (P kw)).
Proof.
  intros Hnone.
  split; [| split; [| split]].
  - destruct (init_cases kw)
      as [(_ & ->) | [(_ & _ & ->) | [(_ & _ & _ & ->) | Hlast]]]; eauto.
    destruct Hlast as (_ & _ & Hsome & _).
    rewrite Hnone in Hsome. destruct Hsome as [? Habs]. discriminate Habs.
  - exact (init_collision kw).
  - exact (init_mismatch kw).
  - split.
    + destruct (init_cases kw)
        as [(_ & ->) | [(_ & _ & ->) | [(Hni & Hs & _) | (Hni & Hs & _)]]];
        solve [discriminate | auto].
    + intros [Hni Hs]. exact (init_missing kw Hni Hs Hnone).
Qed.

(** C4 (P6, minimal failure): the collision test comes before the subset
    test.  Whenever k is one of the memory variables, construction fails with
    the collision error, whatever the prompt variables are, and so also when
    the subset condition is violated too: the mismatch error is never the one
    raised then. *)
Theorem collision_precedes_subset (kw : kwargs) :
  k kw ∈ M kw →
  __init__ kw = Raise (ValueError (InputKeyCollision (k kw) (M kw)))
  ∧ ∀ expected actual,
      __init__ kw ≠ Raise (ValueError (PromptMemoryMismatch expected actual)).
Proof.
  intros Hin. rewrite (init_collision kw Hin). split; [reflexivity |].
  intros expected actual Heq. discriminate Heq.
Qed.

(** C5 (P3, required-key stability): on a successfully constructed chain,
    [input_keys] is the one-element list holding the chain's input key (the
    one configured, or "input"); none of its elements is a memory variable,
    however many memory or prompt variables there are; and reading it any
    number of times gives that same list each time and leaves the chain as
    it was. *)
Theorem required_input_keys (kw : kwargs) (self : ConversationChain) :
  __init__ kw = Return self →
  input_keys self = [input_key self]
  ∧ input_key self = default "input" (kw_input_key kw)
  ∧ length (input_keys self) = 1
  ∧ (∀ x, x ∈ input_keys self → x ∉ M kw)
  ∧ ∀ n, read_input_keys n self = (self, replicate n [input_key self]).
Proof.
  intros Hret. apply init_returns in Hret as (-> & Hni & _ & _).
  repeat split.
  - intros x Hx. apply list_elem_of_singleton in Hx as ->. exact Hni.
  - intros n. apply read_input_keys_spec.
Qed.

(** C6 (I1, I2), as amended: every chain whose construction succeeds has,
    when construction returns, a memory store attached and satisfies I1 (its
    input key is not a memory variable) and I2 (the memory variables together
    with the input key are all prompt variables), for the memory variables,
    input key and prompt variables of the configuration it was built from. *)
Theorem construction_establishes_invariants
    (kw : kwargs) (self : ConversationChain) :
  __init__ kw = Return self →
  invariants self
  ∧ memory self = Some (attached_memory ConversationBufferMemory kw)
  ∧ input_key self = k kw
  ∧ BasePromptTemplate.input_variables (prompt self) = P kw
  ∧ I1 (M kw) (k kw) ∧ I2 (M kw) (k kw) (P kw).
Proof.
  intros Hret. apply init_returns in Hret as (-> & Hni & Hs & _).
  split; [| auto].
  exists (attached_memory ConversationBufferMemory kw). auto.
Qed.

(** C7 (P5, success path): when k is not a memory variable, M with k is
    included in P and the memory's input key is set, construction succeeds,
    returns the chain with the fields as configured, and [input_keys] of that
    chain is [[k]].  P may be strictly larger than M with k. *)
Theorem success_path (kw : kwargs) :
  I1 (M kw) (k kw) → I2 (M kw) (k kw) (P kw) → is_Some (memory_input_key kw) →
  __init__ kw = Return (assign_fields kw)
  ∧ input_keys (assign_fields kw) = [k kw].
Proof.
  intros Hni Hs Hsome. split; [| reflexivity].
  apply init_success; assumption.
Qed.

(** C8: the output key has no influence.  Two configurations that agree on
    the memory, the prompt and the input key either both succeed or both
    fail, they fail with the same error, and on success their chains have the
    same [input_keys]. *)
Theorem output_key_irrelevant (kw1 kw2 : kwargs) :
  kw_memory kw1 = kw_memory kw2 →
  kw_prompt kw1 = kw_prompt kw2 →
  kw_input_key kw1 = kw_input_key kw2 →
  succeeds (__init__ kw1) = succeeds (__init__ kw2)
  ∧ (∀ e, __init__ kw1 = Raise e ↔ __init__ kw2 = Raise e)
  ∧ (∀ self1 self2, __init__ kw1 = Return self1 → __init__ kw2 = Return self2 →
       input_keys self1 = input_keys self2).
Proof.
  intros Hm Hp Hk.
  assert (HM : M kw1 = M kw2).
  { unfold memory_keys_of, attached_memory. rewrite Hm. reflexivity. }
  assert (Hkk : k kw1 = k kw2).
  { unfold input_key_of. simpl. rewrite Hk. reflexivity. }
  assert (HP : P kw1 = P kw2).
  { unfold prompt_variables_of. simpl. rewrite Hp. reflexivity. }
  assert (Hik : memory_input_key kw1 = memory_input_key kw2).
  { unfold memory_input_key_of, attached_memory. rewrite Hm. reflexivity. }
  destruct (init_cases kw1)
    as [(Hin & ->) | [(Hni & Hns & ->) | [(Hni & Hs & Hn & ->) | Hlast]]];
    [| | | destruct Hlast as (Hni & Hs & Hsome & ->)];
    rewrite ?HM, ?Hkk, ?HP, ?Hik in *.
  - rewrite (init_collision kw2 Hin). repeat split; try tauto; discriminate.
  - rewrite (init_mismatch kw2 Hni Hns). repeat split; try tauto; discriminate.
  - rewrite (init_missing kw2 Hni Hs Hn). repeat split; try tauto; discriminate.
  - rewrite (init_success kw2 Hni Hs Hsome). repeat split; try discriminate.
    intros self1 self2 [= <-] [= <-]. unfold input_keys. simpl.
    rewrite Hk. reflexivity.
Qed.

(** C9: the unset-memory-input-key test runs after both cross-field tests.
    With the memory's input key unset, a collision still gives the collision
    error and a violated subset condition still gives the mismatch error (the
    collision error when k is a memory variable as well), never the
    missing-memory-input-key error; that one is raised exactly when the
    memory's input key is unset and both cross-field tests pass. *)
Theorem unset_key_tested_last (kw : kwargs) :
  (memory_input_key kw = None → k kw ∈ M kw →
     __init__ kw = Raise (ValueError (InputKeyCollision (k kw) (M kw))))
  ∧ (memory_input_key kw = None → ¬ I2 (M kw) (k kw) (P kw) →
       __init__ kw ≠ Raise (ValueError MissingMemoryInputKey)
       ∧ (I1 (M kw) (k kw) →
            __init__ kw
            = Raise (ValueError (PromptMemoryMismatch (M kw ++ [k kw])%list (P kw))))
       ∧ (k kw ∈ M kw →
            __init__ kw = Raise (ValueError (InputKeyCollision (k kw) (M kw)))))
  ∧ (__init__ kw = Raise (ValueError MissingMemoryInputKey)
     ↔ memory_input_key kw = None ∧ I1 (M kw) (k kw) ∧ I2 (M kw) (k kw) (P kw)).
Proof.
  split; [| split].
  - intros _ Hin. exact (init_collision kw Hin).
  - intros _ Hns. split; [| split].
    + destruct (init_cases kw)
        as [(_ & ->) | [(_ & _ & ->) | [(_ & Hs & _) | (_ & Hs & _)]]];
        solve [discriminate | contradiction].
    + intros Hni. exact (init_mismatch kw Hni Hns).
    + intros Hin. exact (init_collision kw Hin).
  - split.
    + destruct (init_cases kw)
        as [(_ & ->) | [(_ & _ & ->) | [(Hni & Hs & Hn & _) | (_ & _ & _ & ->)]]];
        solve [discriminate | auto].
    + intros (Hn & Hni & Hs). exact (init_missing kw Hni Hs Hn).
Qed.

(** C10: a memory store is always attached.  The field holds the store the
    caller gave or, when the caller gave none, the instance of the default
    factory; the validator reads its memory keys from that store and never
    meets [None]; a constructed chain has a store. *)
Theorem memory_always_attached (kw : kwargs) :
  memory (assign_fields kw) = Some (attached_memory ConversationBufferMemory kw)
  ∧ attached_memory ConversationBufferMemory kw
    = match kw_memory kw with
      | Some m => m
      | None => ConversationBufferMemory
      end
  ∧ read_memory_keys (assign_fields kw) = Return (M kw)
  ∧ (∀ attr, __init__ kw ≠ Raise (AttributeError attr))
  ∧ (∀ self, __init__ kw = Return self →
       memory self = Some (attached_memory ConversationBufferMemory kw)).
Proof.
  split; [reflexivity |].
  split; [unfold attached_memory; destruct (kw_memory kw); reflexivity |].
  split; [reflexivity |]. split.
  - intros attr.
    destruct (init_cases kw)
      as [(_ & ->) | [(_ & _ & ->) | [(_ & _ & _ & ->) | (_ & _ & _ & ->)]]];
      discriminate.
  - intros self Hret. apply init_returns in Hret as (-> & _). reflexivity.
Qed.

End Properties.

(** * The properties at concrete configurations *)

Section Concrete.

Local Abbreviation dm := default_buffer_memory.
Local Abbreviation dp := default_prompt.
Local Abbreviation M := (memory_keys_of dm).
Local Abbreviation k := (input_key_of dm dp).
Local Abbreviation P := (prompt_variables_of dm dp).

(** Membership and the invariants are decidable, so on closed lists they are
    settled by evaluation. *)
Local Ltac by_evaluation :=
  lazymatch goal with
  | |- ¬ _ => refine (bool_decide_eq_false_1 _ _); vm_compute; reflexivity
  | |- _ => refine (bool_decide_unpack _ _); vm_compute; exact I
  end.

(** C1 at M = ["input"], k = "input". *)
Lemma collision_detection_witness :
  k P6_config ∈ M P6_config
  ∧ construct P6_config = Raise (ValueError (InputKeyCollision "input" ["input"])).
Proof.
  assert (Hin : k P6_config ∈ M P6_config) by by_evaluation.
  split; [exact Hin |].
  exact (proj1 (collision_detection dm dp P6_config Hin)).
Defined.

(** C2 as stated fails: with M = ["input"], k = "input" and P empty the
    subset condition is violated, yet the error is the collision one. *)
Lemma subset_enforcement_counterexample :
  ¬ I2 (M P6_config) (k P6_config) (P P6_config)
  ∧ construct P6_config = Raise (ValueError (InputKeyCollision "input" ["input"]))
  ∧ construct P6_config
    ≠ Raise (ValueError (PromptMemoryMismatch
                           (M P6_config ++ [k P6_config])%list (P P6_config))).
Proof.
  split; [by_evaluation |]. split; [reflexivity |]. discriminate.
Qed.

(** C2 as amended, at M = ["history"], P = ["input"], k = "input". *)
Lemma subset_enforcement_witness :
  I1 (M mismatch_config) (k mismatch_config)
  ∧ ¬ I2 (M mismatch_config) (k mismatch_config) (P mismatch_config)
  ∧ construct mismatch_config
    = Raise (ValueError (PromptMemoryMismatch ["history"; "input"] ["input"])).
Proof.
  assert (Hni : I1 (M mismatch_config) (k mismatch_config)) by by_evaluation.
  assert (Hns : ¬ I2 (M mismatch_config) (k mismatch_config) (P mismatch_config))
    by by_evaluation.
  split; [exact Hni |]. split; [exact Hns |].
  exact (proj1 (subset_enforcement dm dp mismatch_config Hni Hns)).
Defined.

(** C3 as stated fails: with the memory's input key unset and M = ["input"],
    k = "input", the error is the collision one, not the missing-key one. *)
Lemma unset_memory_key_rejection_counterexample :
  memory_input_key_of dm unset_collision_config = None
  ∧ construct unset_collision_config
    = Raise (ValueError (InputKeyCollision "input" ["input"]))
  ∧ construct unset_collision_config ≠ Raise (ValueError MissingMemoryInputKey).
Proof.
  split; [reflexivity |]. split; [reflexivity |]. discriminate.
Qed.

(** C3 as amended, at a configuration that passes both cross-field tests. *)
Lemma unset_memory_key_rejection_witness :
  memory_input_key_of dm unset_config = None
  ∧ construct unset_config = Raise (ValueError MissingMemoryInputKey).
Proof.
  assert (Hni : I1 (M unset_config) (k unset_config)) by by_evaluation.
  assert (Hs : I2 (M unset_config) (k unset_config) (P unset_config))
    by by_evaluation.
  split; [reflexivity |].
  pose proof (unset_memory_key_rejection dm dp unset_config eq_refl) as Hthm.
  exact (proj2 (proj2 (proj2 (proj2 Hthm))) (conj Hni Hs)).
Defined.

(** C4 at M = ["input"], k = "input", P empty: both conditions are violated
    and the collision error is the one raised. *)
Lemma collision_precedes_subset_witness :
  k P6_config ∈ M P6_config
  ∧ ¬ I2 (M P6_config) (k P6_config) (P P6_config)
  ∧ construct P6_config = Raise (ValueError (InputKeyCollision "input" ["input"])).
Proof.
  assert (Hin : k P6_config ∈ M P6_config) by by_evaluation.
  split; [exact Hin |]. split; [by_evaluation |].
  exact (proj1 (collision_precedes_subset dm dp P6_config Hin)).
Defined.

(** C5 at the configuration of P5. *)
Lemma required_input_keys_witness :
  construct P5_config = Return P5_chain ∧ input_keys P5_chain = ["input"].
Proof.
  split; [reflexivity |].
  exact (proj1 (required_input_keys dm dp P5_config P5_chain eq_refl)).
Defined.

(** C6 as stated fails: the chain built from the configuration of P5
    satisfies I1 and I2, and after the assignment [chain.input_key = "history"],
    which nothing validates, its input key is a memory variable. *)
Lemma construction_establishes_invariants_counterexample :
  construct P5_config = Return P5_chain
  ∧ invariants P5_chain
  ∧ input_keys (set_input_key "history" P5_chain) = ["history"]
  ∧ ¬ invariants (set_input_key "history" P5_chain).
Proof.
  split; [reflexivity |]. split; [| split; [reflexivity |]].
  - exists (BaseMemory.Build ["history"] (Some "input")).
    split; [reflexivity |]. split; by_evaluation.
  - intros (m & Hm & Hi1 & _). simpl in Hm. injection Hm as <-.
    apply Hi1. simpl. by_evaluation.
Qed.

(** C6 as amended, at the configuration of P5. *)
Lemma construction_establishes_invariants_witness :
  construct P5_config = Return P5_chain ∧ invariants P5_chain.
Proof.
  split; [reflexivity |].
  pose proof (construction_establishes_invariants dm dp P5_config P5_chain eq_refl)
    as Hthm.
  exact (proj1 Hthm).
Defined.

(** C7 at its two configurations: P5, and the prompt with the extra variable. *)
Lemma success_path_witness :
  (construct P5_config = Return P5_chain ∧ input_keys P5_chain = ["input"])
  ∧ succeeds (construct superset_config) = true.
Proof.
  assert (Hni5 : I1 (M P5_config) (k P5_config)) by by_evaluation.
  assert (Hs5 : I2 (M P5_config) (k P5_config) (P P5_config)) by by_evaluation.
  assert (Hni : I1 (M superset_config) (k superset_config)) by by_evaluation.
  assert (Hs : I2 (M superset_config) (k superset_config) (P superset_config))
    by by_evaluation.
  assert (Hset : ∀ ik : string, is_Some (Some ik))
    by (intros ik; exists ik; reflexivity).
  split.
  - exact (success_path dm dp P5_config Hni5 Hs5 (Hset "input")).
  - pose proof (success_path dm dp superset_config Hni Hs (Hset "input")) as Hthm.
    exact (f_equal succeeds (proj1 Hthm)).
Defined.

(** C8 at the configuration of P5 and the same with another output key. *)
Lemma output_key_irrelevant_witness :
  succeeds (construct P5_config)
  = succeeds (construct (with_output_key (Some "answer") P5_config)).
Proof.
  pose proof (output_key_irrelevant dm dp P5_config
                (with_output_key (Some "answer") P5_config)
                eq_refl eq_refl eq_refl) as Hthm.
  exact (proj1 Hthm).
Defined.

(** C9 with the memory's input key unset: a collision, a mismatch, and a
    configuration that passes both cross-field tests. *)
Lemma unset_key_tested_last_witness :
  construct unset_collision_config
  = Raise (ValueError (InputKeyCollision "input" ["input"]))
  ∧ construct unset_mismatch_config
    = Raise (ValueError (PromptMemoryMismatch ["history"; "input"] ["input"]))
  ∧ construct unset_config = Raise (ValueError MissingMemoryInputKey).
Proof.
  assert (Hin : k unset_collision_config ∈ M unset_collision_config)
    by by_evaluation.
  assert (Hni : I1 (M unset_mismatch_config) (k unset_mismatch_config))
    by by_evaluation.
  assert (Hns : ¬ I2 (M unset_mismatch_config) (k unset_mismatch_config)
                     (P unset_mismatch_config)) by by_evaluation.
  assert (Hni' : I1 (M unset_config) (k unset_config)) by by_evaluation.
  assert (Hs' : I2 (M unset_config) (k unset_config) (P unset_config))
    by by_evaluation.
  split; [| split].
  - exact (proj1 (unset_key_tested_last dm dp unset_collision_config) eq_refl Hin).
  - pose proof (unset_key_tested_last dm dp unset_mismatch_config) as Hthm.
    exact (proj1 (proj2 (proj1 (proj2 Hthm) eq_refl Hns)) Hni).
  - pose proof (unset_key_tested_last dm dp unset_config) as Hthm.
    exact (proj2 (proj2 (proj2 Hthm)) (conj eq_refl (conj Hni' Hs'))).
Defined.

(** C10 with no keyword given: the chain's store is the default instance. *)
Lemma memory_always_attached_witness :
  memory (assign_fields dm dp no_kwargs) = Some default_buffer_memory
  ∧ read_memory_keys (assign_fields dm dp no_kwargs) = Return ["history"].
Proof.
  pose proof (memory_always_attached dm dp no_kwargs) as Hthm.
  exact (conj (proj1 Hthm) (proj1 (proj2 (proj2 Hthm)))).
Defined.

End Concrete.

(** * Further properties of the constructor and the validator *)

Section Further.

Context (ConversationBufferMemory : BaseMemory.t) (PROMPT : BasePromptTemplate.t).

Local Abbreviation assign_fields :=
  (assign_fields ConversationBufferMemory PROMPT).
Local Abbreviation __init__ := (__init__ ConversationBufferMemory PROMPT).
Local Abbreviation M := (memory_keys_of ConversationBufferMemory).
Local Abbreviation k := (input_key_of ConversationBufferMemory PROMPT).
Local Abbreviation P := (prompt_variables_of ConversationBufferMemory PROMPT).
Local Abbreviation memory_input_key :=
  (memory_input_key_of ConversationBufferMemory).

Local Ltac by_cases kw :=
  let H := fresh "Hlast" in
  destruct (init_cases ConversationBufferMemory PROMPT kw)
    as [(? & ->) | [(? & ? & ->) | [(? & ? & ? & ->) | H]]];
  [| | | destruct H as (? & ? & ? & ->)].

(** What a success and a collision error say about the configuration. *)
Lemma init_succeeds_inv (kw : kwargs) :
  succeeds (__init__ kw) = true →
  I1 (M kw) (k kw) ∧ I2 (M kw) (k kw) (P kw) ∧ is_Some (memory_input_key kw).
Proof.
  by_cases kw; simpl; intros Hs; try discriminate Hs. auto.
Qed.

Lemma init_collision_inv (kw : kwargs) (key : string) (keys : list string) :
  __init__ kw = Raise (ValueError (InputKeyCollision key keys)) →
  key = k kw ∧ keys = M kw ∧ k kw ∈ M kw.
Proof.
  by_cases kw; intros Heq; try discriminate Heq.
  injection Heq as <- <-. auto.
Qed.

(** X1 (I3): the memory store of a constructed chain has its input key set. *)
Theorem constructed_memory_has_input_key (kw : kwargs) (self : ConversationChain) :
  __init__ kw = Return self →
  ∃ m ik, memory self = Some m ∧ BaseMemory.input_key m = Some ik.
Proof.
  intros Hret.
  apply init_returns in Hret as (-> & _ & _ & [ik Hik]).
  exists (attached_memory ConversationBufferMemory kw), ik. split; [reflexivity | exact Hik].
Qed.

(** X2: construction succeeds exactly when the input key is not a memory
    variable, the memory variables and the input key are all prompt variables,
    and the memory's input key is set. *)
Theorem success_criterion (kw : kwargs) :
  succeeds (__init__ kw) = true
  ↔ I1 (M kw) (k kw) ∧ I2 (M kw) (k kw) (P kw) ∧ is_Some (memory_input_key kw).
Proof.
  split; [apply init_succeeds_inv |].
  intros (Hni & Hs & Hsome). rewrite init_success by assumption. reflexivity.
Qed.

(** X3: the collision error is raised only on a real collision: the key it
    carries is the chain's input key, the list is the memory's variables, and
    the key is in the list. *)
Theorem collision_error_is_sound (kw : kwargs) (key : string) (keys : list string) :
  __init__ kw = Raise (ValueError (InputKeyCollision key keys)) →
  key = k kw ∧ keys = M kw ∧ key ∈ keys.
Proof.
  intros Heq. apply init_collision_inv in Heq as (-> & -> & Hin). auto.
Qed.

(** X4: the mismatch error is raised only on a real mismatch: it carries the
    memory variables followed by the input key and the prompt variables, the
    input key is not a memory variable, some expected key is missing from the
    prompt variables, and the expected keys have no repetition when the memory
    variables have none. *)
Theorem mismatch_error_is_sound (kw : kwargs) (expected actual : list string) :
  __init__ kw = Raise (ValueError (PromptMemoryMismatch expected actual)) →
  expected = (M kw ++ [k kw])%list ∧ actual = P kw
  ∧ I1 (M kw) (k kw)
  ∧ (∃ x, x ∈ expected ∧ x ∉ actual)
  ∧ (NoDup (M kw) → NoDup expected).
Proof.
  by_cases kw; intros Heq; try discriminate Heq.
  injection Heq as <- <-.
  match goal with Hni : I1 _ _, Hns : ¬ I2 _ _ _ |- _ =>
    rename Hni into Hnotin; rename Hns into Hnsub end.
  split; [reflexivity |]. split; [reflexivity |]. split; [exact Hnotin |]. split.
  - assert (Hex : Exists (λ x, ¬ (x ∈ P kw)) (M kw ++ [k kw])%list).
    { apply (not_Forall_Exists (λ x, x ∈ P kw)). intros Hall.
      apply Hnsub. apply I2_elements. intros x Hx.
      rewrite Forall_forall in Hall. apply Hall.
      rewrite elem_of_app, list_elem_of_singleton. exact Hx. }
    apply Exists_exists in Hex as (x & Hx & Hmiss). eauto.
  - intros Hnd. apply NoDup_app. split; [exact Hnd |]. split.
    + intros x Hx Hxk. apply list_elem_of_singleton in Hxk as ->. contradiction.
    + apply NoDup_singleton.
Qed.

(** X5: only the sets count.  Two configurations with the same input key,
    the same memory variables up to order and repetition, the same prompt
    variables up to order and repetition, and memory input keys both set or
    both unset, either both succeed or fail with the same kind of error. *)
Theorem outcome_depends_on_sets (kw1 kw2 : kwargs) :
  k kw1 = k kw2 →
  (∀ x, x ∈ M kw1 ↔ x ∈ M kw2) →
  (∀ x, x ∈ P kw1 ↔ x ∈ P kw2) →
  (memory_input_key kw1 = None ↔ memory_input_key kw2 = None) →
  succeeds (__init__ kw1) = succeeds (__init__ kw2)
  ∧ ∀ e1, __init__ kw1 = Raise (ValueError e1) →
      ∃ e2, __init__ kw2 = Raise (ValueError e2) ∧ kind_of e2 = kind_of e1.
Proof.
  intros Hk HM HP Hmik.
  assert (H1 : I1 (M kw1) (k kw1) ↔ I1 (M kw2) (k kw2)).
  { unfold I1. rewrite Hk, HM. reflexivity. }
  assert (H2 : I2 (M kw1) (k kw1) (P kw1) ↔ I2 (M kw2) (k kw2) (P kw2)).
  { rewrite !I2_elements, Hk. split; intros Hall x Hx.
    - apply HP, Hall. rewrite HM. exact Hx.
    - apply HP, Hall. rewrite <- HM. exact Hx. }
  by_cases kw1.
  - rewrite (init_collision _ _ kw2) by (rewrite <- Hk; apply HM; assumption).
    split; [reflexivity |]. intros e1 [= <-]. eauto.
  - rewrite (init_mismatch _ _ kw2) by tauto.
    split; [reflexivity |]. intros e1 [= <-]. eauto.
  - rewrite (init_missing _ _ kw2) by tauto.
    split; [reflexivity |]. intros e1 [= <-]. eauto.
  - rewrite (init_success _ _ kw2).
    + split; [reflexivity |]. intros e1 Heq. discriminate Heq.
    + tauto.
    + tauto.
    + destruct (memory_input_key kw2) as [ik |] eqn:Hik2; [eauto |].
      match goal with Hsome : is_Some _ |- _ => destruct Hsome as [ik1 Hik1] end.
      rewrite (proj2 Hmik eq_refl) in Hik1. discriminate Hik1.
Qed.

(** X6: a valid configuration stays valid with more prompt variables and
    with fewer memory variables (the input key kept and the memory's input key
    set): the prompt may hold variables that neither the memory nor the caller
    supplies. *)
Theorem success_is_monotone (kw1 kw2 : kwargs) :
  k kw1 = k kw2 →
  (∀ x, x ∈ M kw2 → x ∈ M kw1) →
  (∀ x, x ∈ P kw1 → x ∈ P kw2) →
  is_Some (memory_input_key kw2) →
  succeeds (__init__ kw1) = true →
  __init__ kw2 = Return (assign_fields kw2).
Proof.
  intros Hk HM HP Hsome Hs.
  apply init_succeeds_inv in Hs as (Hni & Hsub & _).
  apply init_success; [| | exact Hsome].
  - unfold I1 in *. rewrite <- Hk. intros Hin. apply Hni, HM, Hin.
  - apply I2_elements. intros x Hx. apply HP.
    apply (proj1 (I2_elements _ _ _) Hsub). rewrite Hk.
    destruct Hx as [Hx | Hx]; [left; apply HM, Hx | right; exact Hx].
Qed.

(** X7: when a memory variable or the input key is missing from the prompt
    variables (in particular when the prompt has no variable at all),
    construction fails, and not with the missing-memory-input-key error. *)
Theorem missing_prompt_variable_fails (kw : kwargs) (x : string) :
  x ∈ M kw ∨ x = k kw → x ∉ P kw →
  succeeds (__init__ kw) = false
  ∧ __init__ kw ≠ Raise (ValueError MissingMemoryInputKey).
Proof.
  intros Hx Hmiss.
  assert (Hns : ¬ I2 (M kw) (k kw) (P kw)).
  { intros Hsub. apply Hmiss. apply (proj1 (I2_elements _ _ _) Hsub). exact Hx. }
  by_cases kw; try contradiction; split; solve [reflexivity | discriminate].
Qed.

(** X8: with a memory that exposes no variable there is never a collision,
    and the input key alone decides: missing from the prompt variables it
    gives the mismatch error with [[k]] as expected keys; present, the chain
    is built if the memory's input key is set and the missing-key error is
    raised if not. *)
Theorem no_memory_variables (kw : kwargs) :
  M kw = [] →
  (∀ key keys, __init__ kw ≠ Raise (ValueError (InputKeyCollision key keys)))
  ∧ (k kw ∉ P kw →
       __init__ kw = Raise (ValueError (PromptMemoryMismatch [k kw] (P kw))))
  ∧ (k kw ∈ P kw →
       __init__ kw
       = match memory_input_key kw with
         | Some _ => Return (assign_fields kw)
         | None => Raise (ValueError MissingMemoryInputKey)
         end).
Proof.
  intros Hempty.
  assert (Hni : I1 (M kw) (k kw)).
  { unfold I1. rewrite Hempty. apply not_elem_of_nil. }
  assert (Hsub : I2 (M kw) (k kw) (P kw) ↔ k kw ∈ P kw).
  { rewrite I2_elements, Hempty. split.
    - intros Hall. apply Hall. right. reflexivity.
    - intros Hin x [Hx | ->]; [| exact Hin]. apply elem_of_nil in Hx. contradiction. }
  split; [| split].
  - intros key keys Heq. apply init_collision_inv in Heq as (_ & _ & Hin).
    contradiction.
  - intros Hnk. rewrite init_mismatch by tauto. rewrite Hempty. reflexivity.
  - intros Hin. destruct (memory_input_key kw) as [ik |] eqn:Hik.
    + apply init_success; [exact Hni | tauto | rewrite Hik; eauto].
    + apply init_missing; [exact Hni | tauto | exact Hik].
Qed.

(** X9: only whether the memory's input key is set matters, not its value:
    it is compared neither with the chain's input key nor with the prompt
    variables.  Two configurations that differ only in the value of a set
    memory input key either both succeed or fail with the same error. *)
Theorem memory_input_key_value_irrelevant (kw1 kw2 : kwargs) :
  kw_prompt kw1 = kw_prompt kw2 →
  kw_input_key kw1 = kw_input_key kw2 →
  M kw1 = M kw2 →
  is_Some (memory_input_key kw1) → is_Some (memory_input_key kw2) →
  succeeds (__init__ kw1) = succeeds (__init__ kw2)
  ∧ ∀ e, __init__ kw1 = Raise e ↔ __init__ kw2 = Raise e.
Proof.
  intros Hp Hk HM Hs1 Hs2.
  assert (Hkk : k kw1 = k kw2).
  { unfold input_key_of. simpl. rewrite Hk. reflexivity. }
  assert (HP : P kw1 = P kw2).
  { unfold prompt_variables_of. simpl. rewrite Hp. reflexivity. }
  by_cases kw1; rewrite ?HM, ?Hkk, ?HP in *.
  - rewrite (init_collision _ _ kw2) by assumption. split; reflexivity.
  - rewrite (init_mismatch _ _ kw2) by assumption. split; reflexivity.
  - match goal with Hn : memory_input_key kw1 = None |- _ =>
      rewrite Hn in Hs1; destruct Hs1 as [? Habs]; discriminate Habs end.
  - rewrite (init_success _ _ kw2) by assumption.
    split; [reflexivity |]. intros e. split; intros Heq; discriminate Heq.
Qed.

(** X10: the validator hands back the values it was given, untouched, so
    validating them again succeeds with the same values. *)
Theorem validator_returns_its_argument (values values' : ConversationChain) :
  validate_prompt_input_variables values = Return values' →
  values' = values
  ∧ validate_prompt_input_variables values' = Return values'.
Proof.
  intros Hret.
  assert (Heq : values' = values).
  { unfold validate_prompt_input_variables, read_memory_keys in Hret.
    destruct (memory values) as [m |]; simpl in Hret; [| discriminate Hret].
    destruct (bool_decide _) in Hret; [discriminate Hret |].
    destruct (negb _) in Hret; [discriminate Hret |].
    injection Hret as <-. reflexivity. }
  split; [exact Heq |]. rewrite Heq at 1. rewrite Hret. reflexivity.
Qed.

(** X11: the three errors can be told apart by their messages alone,
    whatever the keys and however Python renders the lists: two errors with
    the same message come from the same [raise] statement. *)
Theorem messages_tell_errors_apart
    (repr : list string → string) (e1 e2 : ConfigurationError) :
  message repr e1 = message repr e2 → kind_of e1 = kind_of e2.
Proof.
  destruct e1 as [| key1 keys1 | exp1 act1], e2 as [| key2 keys2 | exp2 act2];
    simpl; intros Heq; solve [reflexivity | discriminate Heq].
Qed.

End Further.

(** * The further properties at concrete configurations *)

Section FurtherConcrete.

Local Abbreviation dm := default_buffer_memory.
Local Abbreviation dp := default_prompt.
Local Abbreviation M := (memory_keys_of dm).
Local Abbreviation k := (input_key_of dm dp).
Local Abbreviation P := (prompt_variables_of dm dp).

Local Ltac by_evaluation :=
  lazymatch goal with
  | |- ¬ _ => refine (bool_decide_eq_false_1 _ _); vm_compute; reflexivity
  | |- _ => refine (bool_decide_unpack _ _); vm_compute; exact I
  end.

Lemma reordered_same_prompt_variables (x : string) :
  x ∈ P P5_config ↔ x ∈ P reordered_config.
Proof.
  change (x ∈ ["history"; "input"] ↔ x ∈ ["input"; "history"; "input"]).
  rewrite !elem_of_cons, !elem_of_nil. tauto.
Qed.

Lemma superset_more_prompt_variables (x : string) :
  x ∈ P P5_config → x ∈ P superset_config.
Proof.
  change (x ∈ ["history"; "input"] → x ∈ ["history"; "input"; "extra"]).
  rewrite !elem_of_cons, !elem_of_nil. tauto.
Qed.

(** X1 at the configuration of P5. *)
Lemma constructed_memory_has_input_key_witness :
  construct P5_config = Return P5_chain
  ∧ ∃ m ik, memory P5_chain = Some m ∧ BaseMemory.input_key m = Some ik.
Proof.
  split; [reflexivity |].
  exact (constructed_memory_has_input_key dm dp P5_config P5_chain eq_refl).
Defined.

(** X3 at M = ["input"], k = "input". *)
Lemma collision_error_is_sound_witness :
  construct P6_config = Raise (ValueError (InputKeyCollision "input" ["input"]))
  ∧ "input" ∈ ["input"].
Proof.
  split; [reflexivity |].
  pose proof (collision_error_is_sound dm dp P6_config "input" ["input"] eq_refl)
    as Hthm.
  exact (proj2 (proj2 Hthm)).
Defined.

(** X4 at M = ["history"], P = ["input"], k = "input": "history" is missing. *)
Lemma mismatch_error_is_sound_witness :
  construct mismatch_config
  = Raise (ValueError (PromptMemoryMismatch ["history"; "input"] ["input"]))
  ∧ ∃ x, x ∈ ["history"; "input"] ∧ x ∉ ["input"].
Proof.
  split; [reflexivity |].
  pose proof (mismatch_error_is_sound dm dp mismatch_config
                ["history"; "input"] ["input"] eq_refl) as Hthm.
  exact (proj1 (proj2 (proj2 (proj2 Hthm)))).
Defined.

(** X5 at the configuration of P5 and the same with the prompt variables
    reordered and repeated. *)
Lemma outcome_depends_on_sets_witness :
  succeeds (construct P5_config) = succeeds (construct reordered_config).
Proof.
  assert (Hmik : memory_input_key_of dm P5_config = None
                 ↔ memory_input_key_of dm reordered_config = None)
    by (split; intros Habs; discriminate Habs).
  pose proof (outcome_depends_on_sets dm dp P5_config reordered_config eq_refl
                (λ x, iff_refl _) reordered_same_prompt_variables Hmik) as Hthm.
  exact (proj1 Hthm).
Defined.

(** X6 from the configuration of P5 to the prompt with the extra variable. *)
Lemma success_is_monotone_witness :
  succeeds (construct P5_config) = true
  ∧ succeeds (construct superset_config) = true.
Proof.
  assert (Hsome : is_Some (memory_input_key_of dm superset_config))
    by (exists "input"; reflexivity).
  split; [reflexivity |].
  pose proof (success_is_monotone dm dp P5_config superset_config eq_refl
                (λ x Hx, Hx) superset_more_prompt_variables Hsome eq_refl) as Hthm.
  exact (f_equal succeeds Hthm).
Defined.

(** X7 at M = ["history"], P = ["input"]: "history" is missing. *)
Lemma missing_prompt_variable_fails_witness :
  ("history" ∉ P mismatch_config)
  ∧ succeeds (construct mismatch_config) = false.
Proof.
  assert (Hin : "history" ∈ M mismatch_config ∨ "history" = k mismatch_config)
    by (left; by_evaluation).
  assert (Hmiss : "history" ∉ P mismatch_config) by by_evaluation.
  split; [exact Hmiss |].
  exact (proj1 (missing_prompt_variable_fails dm dp mismatch_config "history"
                  Hin Hmiss)).
Defined.

(** X8 at a memory without variables and the prompt over "input" alone. *)
Lemma no_memory_variables_witness :
  M empty_memory_config = []
  ∧ construct empty_memory_config = Return empty_memory_chain.
Proof.
  assert (Hin : k empty_memory_config ∈ P empty_memory_config) by by_evaluation.
  split; [reflexivity |].
  pose proof (no_memory_variables dm dp empty_memory_config eq_refl) as Hthm.
  exact (proj2 (proj2 Hthm) Hin).
Defined.

(** X9 at the configuration of P5 and the same with the memory's input key
    "human_input", which is neither the chain's input key nor a prompt
    variable: both succeed. *)
Lemma memory_input_key_value_irrelevant_witness :
  succeeds (construct P5_config) = true
  ∧ succeeds (construct P5_config) = succeeds (construct foreign_key_config).
Proof.
  assert (Hs1 : is_Some (memory_input_key_of dm P5_config))
    by (exists "input"; reflexivity).
  assert (Hs2 : is_Some (memory_input_key_of dm foreign_key_config))
    by (exists "human_input"; reflexivity).
  split; [reflexivity |].
  pose proof (memory_input_key_value_irrelevant dm dp P5_config foreign_key_config
                eq_refl eq_refl eq_refl Hs1 Hs2) as Hthm.
  exact (proj1 Hthm).
Defined.

(** X10 at the values of the chain of P5. *)
Lemma validator_returns_its_argument_witness :
  validate_prompt_input_variables P5_chain = Return P5_chain.
Proof.
  pose proof (validator_returns_its_argument P5_chain P5_chain eq_refl) as Hthm.
  exact (proj2 Hthm).
Defined.

(** X11 with a rendering that hides the lists: two collision errors with the
    same key then have the same message, and the same kind. *)
Lemma messages_tell_errors_apart_witness :
  message (λ _, "[...]") (InputKeyCollision "input" ["input"])
  = message (λ _, "[...]") (InputKeyCollision "input" ["input"; "history"])
  ∧ kind_of (InputKeyCollision "input" ["input"])
    = kind_of (InputKeyCollision "input" ["input"; "history"]).
Proof.
  split; [reflexivity |].
  exact (messages_tell_errors_apart (λ _, "[...]")
           (InputKeyCollision "input" ["input"])
           (InputKeyCollision "input" ["input"; "history"]) eq_refl).
Defined.

End FurtherConcrete.
